(** * strip_license_header.py: the Doxygen input filter of Scenery Editor X

    A shallow embedding of [scripts/strip_license_header.py] and the
    properties of its [process] transformation and of its input-acquisition
    step [_read_input].

    A Python [str] is a sequence of Unicode code points; it is modelled as a
    list of code points ([N]).  The built-in string methods the script calls
    ([str.splitlines], [str.lstrip], [str.startswith], [in], [str.join] and
    slicing) are modelled after their documented behaviour in the Python
    library reference. *)

From Stdlib Require Import String Ascii List NArith Arith Lia Bool.
Import ListNotations.

(** ** Python strings *)

Module PyStr.

Definition codepoint := N.
Definition str := list codepoint.

(** A literal of the source, character by character. *)
Definition lit (s : string) : str :=
  map N_of_ascii (list_ascii_of_string s).

Definition LF : codepoint := 10%N.
Definition CR : codepoint := 13%N.

(** The line boundaries of [str.splitlines]: LF, CR (and CR LF as one),
    VT, FF, the separators U+001C, U+001D and U+001E, NEL (U+0085), and
    the line and paragraph separators U+2028 and U+2029. *)
Definition isLinebreak (c : codepoint) : bool :=
  ((10 <=? c) && (c <=? 13)
   || (28 <=? c) && (c <=? 30)
   || (c =? 133)
   || (c =? 8232) || (c =? 8233))%N.

(** The characters [str.isspace] accepts, which [str.lstrip()] without an
    argument removes: U+0009..U+000D, U+001C..U+001F, space, U+0085,
    U+00A0, U+1680, U+2000..U+200A, U+2028, U+2029, U+202F, U+205F and
    U+3000. *)
Definition isWhitespace (c : codepoint) : bool :=
  ((9 <=? c) && (c <=? 13)
   || (28 <=? c) && (c <=? 31)
   || (c =? 32)
   || (c =? 133) || (c =? 160)
   || (c =? 5760)
   || (8192 <=? c) && (c <=? 8202)
   || (c =? 8232) || (c =? 8233)
   || (c =? 8239) || (c =? 8287)
   || (c =? 12288))%N.

(** [s.splitlines(keepends=True)]: scan to the next line boundary, take it
    into the line (a \r followed by \n counts as one boundary), emit the
    line and go on after it.  [cur] is the part of the current line
    scanned so far.  A string that does not end in a boundary gives a last
    line without terminator; the empty string gives no line. *)
Fixpoint splitlines_from (cur s : str) : list str :=
  match s with
  | [] => match cur with [] => [] | _ :: _ => [cur] end
  | c :: rest =>
      if isLinebreak c then
        match rest with
        | c' :: rest' =>
            if ((c =? CR) && (c' =? LF))%N
            then (cur ++ [c; c']) :: splitlines_from [] rest'
            else (cur ++ [c]) :: splitlines_from [] rest
        | [] => [cur ++ [c]]
        end
      else splitlines_from (cur ++ [c]) rest
  end.

Definition splitlines (s : str) : list str := splitlines_from [] s.

(** [''.join(xs)] *)
Definition join (xs : list str) : str := List.concat xs.

(** [s.lstrip()] *)
Fixpoint lstrip (s : str) : str :=
  match s with
  | [] => []
  | c :: rest => if isWhitespace c then lstrip rest else s
  end.

(** [s.startswith(prefix)] *)
Fixpoint startswith (s prefix : str) : bool :=
  match prefix with
  | [] => true
  | p :: prefix' =>
      match s with
      | [] => false
      | c :: s' => (c =? p)%N && startswith s' prefix'
      end
  end.

(** [sub in s] *)
Fixpoint contains (sub s : str) : bool :=
  startswith s sub
  || match s with
     | [] => false
     | _ :: s' => contains sub s'
     end.

End PyStr.

Import PyStr.

(** ** The transformation *)

(** The three conditions of the source's [if], on the lines of the input.
    [lines[0]] is read under the guard [len(lines) >= 12], where it exists. *)
Definition banner_conditions (lines : list str) : bool :=
  let first12 := join (firstn 12 lines) in
  let line1_stripped := lstrip (nth 0 lines []) in
  startswith line1_stripped (lit "/**")
  && contains (lit "Scenery Editor X") first12
  && contains (lit "*/") first12.

Definition process (data : str) : str :=
  let lines := splitlines data in
  if 12 <=? length lines then
    if banner_conditions lines
    then join (skipn 12 lines)
    else data
  else data.

(** The strip-or-passthrough decision [process] takes on an input. *)
Definition strips (data : str) : bool :=
  let lines := splitlines data in
  (12 <=? length lines) && banner_conditions lines.

(** ** Input acquisition and the entry point *)

Module IO.

(** The exceptions a run can end in.  [KeyboardInterrupt] and [SystemExit]
    derive from [BaseException] only, so [except Exception] lets them
    through; all the others derive from [Exception].  [SystemExit] carries
    the status it asks for. *)
Inductive exn :=
| FileNotFoundError
| PermissionError
| IsADirectoryError
| OSError
| BrokenPipeError
| UnicodeEncodeError
| ValueError
| MemoryError
| KeyboardInterrupt
| SystemExit (status : N).

Definition derives_from_Exception (e : exn) : bool :=
  match e with
  | KeyboardInterrupt | SystemExit _ => false
  | _ => true
  end.

(** A computation that returns a value or raises. *)
Inductive result (A : Type) :=
| Ok (a : A)
| Raise (e : exn).
Arguments Ok {A} a.
Arguments Raise {A} e.

Definition bind {A B} (m : result A) (k : A -> result B) : result B :=
  match m with
  | Ok a => k a
  | Raise e => Raise e
  end.

(** [try m except Exception: handler] *)
Definition try_except_Exception {A} (m : result A) (handler : result A)
  : result A :=
  match m with
  | Ok a => Ok a
  | Raise e => if derives_from_Exception e then handler else Raise e
  end.

(** What one run of the script sees: [sys.argv], the bytes of the files
    (or the error opening or reading them raises), what
    [sys.stdin.read()] gives, what [sys.stdout.write] does with a text (it
    takes it, or raises: an encoding that cannot hold a character, a closed
    pipe), and how the flush of standard output goes when the interpreter
    ends. *)
Record world := {
  argv : list str;
  file_bytes : str -> result (list Byte.byte);
  stdin_read : result str;
  stdout_write : str -> result unit;
  stdout_flush : result unit
}.

(** The status a shell sees for a script whose body is [m].  An unhandled
    [KeyboardInterrupt] makes the interpreter end itself by SIGINT: 130.
    Otherwise a failed flush of standard output at the end gives 120; with
    a good flush the status is 0 when the body returns, the status
    [SystemExit] carries, and 1 for any other exception. *)
Definition exit_status {A} (w : world) (m : result A) : N :=
  match m with
  | Raise KeyboardInterrupt => 130%N
  | _ =>
      match stdout_flush w with
      | Raise _ => 120%N
      | Ok _ =>
          match m with
          | Ok _ => 0%N
          | Raise (SystemExit status) => status
          | Raise _ => 1%N
          end
      end
  end.

Section Script.

(** The text layer of [read_text]: UTF-8 decoding with [errors="replace"]
    (total, every invalid sequence becomes U+FFFD) followed by the
    translation of CR LF and CR into LF that text mode applies.  It is the
    interpreter's. *)
Variable decode_text : list Byte.byte -> str.

(** [Path(p).read_text(encoding="utf-8", errors="replace")] *)
Definition read_text (w : world) (p : str) : result str :=
  bind (file_bytes w p) (fun bs => Ok (decode_text bs)).

Definition _read_input (w : world) : result str :=
  if 1 <? length (argv w) then
    let file_path := nth 1 (argv w) [] in
    try_except_Exception (read_text w file_path) (Ok [])
  else stdin_read w.

(** [main]: the write is outside every [try], so what it raises propagates;
    when [main] returns, its value here is the text it has written. *)
Definition main (w : world) : result str :=
  bind (_read_input w) (fun data =>
  let output := process data in
  bind (stdout_write w output) (fun _ => Ok output)).

End Script.

End IO.

(** ** The claim of spaces-and-tabs-only trimming, as the specification words it *)

(** The first line with leading spaces and tabs (and nothing else) removed. *)
Fixpoint lstrip_spaces_tabs (s : str) : str :=
  match s with
  | [] => []
  | c :: rest => if ((c =? 32) || (c =? 9))%N then lstrip_spaces_tabs rest else s
  end.

(** The number of positions of [s] at which an occurrence of [sub] starts. *)
Fixpoint occurrences (sub s : str) : nat :=
  (if startswith s sub then 1 else 0)
  + match s with
    | [] => 0
    | _ :: s' => occurrences sub s'
    end.

(** ** Lines as a text file has them *)

(** A line without a boundary inside it, ended by LF or by CR LF. *)
Fixpoint terminated_line (l : str) : bool :=
  match l with
  | [] => false
  | c :: rest =>
      match rest with
      | [] => (c =? LF)%N
      | c' :: rest' =>
          if isLinebreak c
          then (c =? CR)%N && (c' =? LF)%N
               && match rest' with [] => true | _ :: _ => false end
          else terminated_line rest
      end
  end.

(** ** Sample inputs *)

Definition nl : str := [LF].

(** [n] empty lines. *)
Definition blank_lines (n : nat) : str := join (repeat nl n).

(** A 12-line banner: the opener, the project name, the closer on line 5. *)
Definition banner : str :=
  lit "/**" ++ nl
  ++ lit " * Scenery Editor X" ++ nl
  ++ lit " *" ++ nl
  ++ lit " * Copyright (c) 2025" ++ nl
  ++ lit " */" ++ nl
  ++ blank_lines 7.

Definition code3 : str :=
  lit "int a;" ++ nl ++ lit "int b;" ++ nl ++ lit "int c;" ++ nl.

(** Scenario A: the banner followed by three lines of code. *)
Definition scenarioA : str := banner ++ code3.

(** Scenario B: eleven lines. *)
Definition scenarioB : str :=
  lit "/**" ++ nl ++ lit " * Scenery Editor X" ++ nl ++ lit " */" ++ nl
  ++ blank_lines 8.

(** Scenario D: a closed 12-line comment without the project name. *)
Definition scenarioD : str :=
  lit "/**" ++ nl ++ lit " * Some Other Project" ++ nl ++ lit " */" ++ nl
  ++ blank_lines 9 ++ code3.

(** Two banners, one after the other. *)
Definition two_banners : str := banner ++ banner ++ code3.

(** A banner whose first line opens with a no-break space (U+00A0). *)
Definition nbsp_banner : str :=
  [160%N] ++ lit "/** Scenery Editor X */" ++ nl ++ blank_lines 11 ++ code3.

(** Twelve lines ended by form feeds, vertical tabs and the separators
    U+2028 and U+2029, without any LF or CR. *)
Definition ff_banner : str :=
  lit "/** Scenery Editor X */" ++ [12%N]
  ++ [11; 8232; 8233; 12; 11; 8232; 8233; 12; 11; 8232; 8233]%N
  ++ lit "int a;".

(** Twelve lines whose first is indented by a no-break space, a space and a
    tab and then opens a line comment, not a block comment. *)
Definition indented_plain : str :=
  [160; 32; 9]%N ++ lit "// Scenery Editor X */" ++ nl ++ blank_lines 11 ++ code3.

(** A first line that is exactly the four characters of an empty comment. *)
Definition overlap_banner : str :=
  lit "/**/" ++ nl ++ lit "// Scenery Editor X" ++ nl ++ blank_lines 10 ++ code3.

(** The banner behind a byte order mark (U+FEFF), as a decoder that keeps
    the mark leaves it. *)
Definition bom_banner : str := [65279%N] ++ banner ++ code3.

(** The banner behind one empty line. *)
Definition late_banner : str := nl ++ banner ++ code3.

(** The twelve lines of a banner in a file with CR LF line ends. *)
Definition crlf_banner_lines : list str :=
  [lit "/**" ++ [CR; LF];
   lit " * Scenery Editor X" ++ [CR; LF];
   lit " */" ++ [CR; LF]]
  ++ repeat [CR; LF] 9.

(** A standard output that takes every text. *)
Definition stdout_accepts : str -> IO.result unit := fun _ => IO.Ok tt.

(** A standard output in an ASCII locale: a text with a character beyond
    U+007F cannot be encoded. *)
Definition stdout_ascii (text : str) : IO.result unit :=
  if forallb (fun c => (c <? 128)%N) text
  then IO.Ok tt
  else IO.Raise IO.UnicodeEncodeError.

(** A run on a path that does not exist. *)
Definition missing_file_world : IO.world :=
  {| IO.argv := [lit "strip_license_header.py"; lit "/src/missing.h"];
     IO.file_bytes := fun _ => IO.Raise IO.FileNotFoundError;
     IO.stdin_read := IO.Ok (lit "unused");
     IO.stdout_write := stdout_accepts;
     IO.stdout_flush := IO.Ok tt |}.

(** A run on a path whose read is interrupted from the keyboard. *)
Definition interrupted_world : IO.world :=
  {| IO.argv := [lit "strip_license_header.py"; lit "/src/big.h"];
     IO.file_bytes := fun _ => IO.Raise IO.KeyboardInterrupt;
     IO.stdin_read := IO.Ok [];
     IO.stdout_write := stdout_accepts;
     IO.stdout_flush := IO.Ok tt |}.

(** A run without argument whose standard input cannot be read. *)
Definition broken_stdin_world : IO.world :=
  {| IO.argv := [lit "strip_license_header.py"];
     IO.file_bytes := fun _ => IO.Raise IO.FileNotFoundError;
     IO.stdin_read := IO.Raise IO.ValueError;
     IO.stdout_write := stdout_accepts;
     IO.stdout_flush := IO.Ok tt |}.

(** A run without argument that is given a text with a character beyond
    ASCII (U+00E9) while standard output is ASCII. *)
Definition ascii_stdout_world : IO.world :=
  {| IO.argv := [lit "strip_license_header.py"];
     IO.file_bytes := fun _ => IO.Raise IO.FileNotFoundError;
     IO.stdin_read := IO.Ok (lit "// caf" ++ [233%N] ++ nl);
     IO.stdout_write := stdout_ascii;
     IO.stdout_flush := IO.Ok tt |}.

(** ** Lines *)

Section Lines.

(** Joining the lines gives the text back: every character of the input,
    terminators included, is in exactly one line. *)
Lemma splitlines_from_join_le (n : nat) :
  forall s cur, length s <= n -> join (splitlines_from cur s) = cur ++ s.
Proof.
  unfold join.
  induction n as [|n IH]; intros [|c rest] cur Hlen; simpl in Hlen;
    try lia.
  - destruct cur; simpl; now rewrite ?app_nil_r.
  - destruct cur; simpl; now rewrite ?app_nil_r.
  - cbn [splitlines_from]. destruct (isLinebreak c).
    + destruct rest as [|c' rest'].
      * simpl. now rewrite app_nil_r.
      * destruct ((c =? CR)%N && (c' =? LF)%N); cbn [concat];
          rewrite IH by (simpl in *; lia); simpl;
          now rewrite <- app_assoc.
    + rewrite IH by lia. now rewrite <- app_assoc.
Qed.

Lemma splitlines_join (s : str) : join (splitlines s) = s.
Proof. unfold splitlines. now rewrite (splitlines_from_join_le (length s)). Qed.

(** No line is empty. *)
Lemma splitlines_from_nonempty_le (n : nat) :
  forall s cur, length s <= n ->
    Forall (fun l => l <> []) (splitlines_from cur s).
Proof.
  induction n as [|n IH]; intros [|c rest] cur Hlen; simpl in Hlen;
    try lia.
  - destruct cur; simpl; constructor; [discriminate | constructor].
  - destruct cur; simpl; constructor; [discriminate | constructor].
  - simpl. destruct (isLinebreak c).
    + destruct rest as [|c' rest'].
      * constructor; [now destruct cur | constructor].
      * destruct ((c =? CR)%N && (c' =? LF)%N); constructor;
          try (now destruct cur); apply IH; simpl in *; lia.
    + apply IH; lia.
Qed.

Lemma splitlines_nonempty (s : str) :
  Forall (fun l => l <> []) (splitlines s).
Proof. apply (splitlines_from_nonempty_le (length s)); lia. Qed.

Lemma join_firstn_skipn (n : nat) (lines : list str) :
  join lines = join (firstn n lines) ++ join (skipn n lines).
Proof.
  unfold join. rewrite <- concat_app. now rewrite firstn_skipn.
Qed.

(** A window of twelve lines holds at least twelve characters. *)
Lemma join_nonempty_length (lines : list str) :
  Forall (fun l => l <> []) lines -> length lines <= length (join lines).
Proof.
  induction 1 as [|l ls Hl _ IH]; simpl; [lia|].
  rewrite length_app. destruct l; [congruence | simpl; lia].
Qed.

Lemma nonempty_firstn (n : nat) (lines : list str) :
  Forall (fun l => l <> []) lines ->
  Forall (fun l => l <> []) (firstn n lines).
Proof.
  intros H. revert n.
  induction H as [|l ls Hl _ IH]; intros [|n]; simpl; auto.
Qed.

(** The input is its first twelve lines followed by the others. *)
Lemma split_at_12 (data : str) :
  data = join (firstn 12 (splitlines data)) ++ join (skipn 12 (splitlines data)).
Proof.
  rewrite <- join_firstn_skipn. symmetry. apply splitlines_join.
Qed.

Lemma window_nonempty (data : str) :
  12 <= length (splitlines data) ->
  12 <= length (join (firstn 12 (splitlines data))).
Proof.
  intros H.
  assert (Hf : length (firstn 12 (splitlines data)) = 12)
    by (rewrite length_firstn; lia).
  rewrite <- Hf at 1. apply join_nonempty_length.
  apply nonempty_firstn. apply splitlines_nonempty.
Qed.

(** The first line is in the window. *)
Lemma first_line_in_window (lines : list str) :
  nth 0 (firstn 12 lines) [] = nth 0 lines [].
Proof. now destruct lines. Qed.

Lemma firstn_12_idem (lines : list str) :
  firstn 12 (firstn 12 lines) = firstn 12 lines.
Proof. rewrite firstn_firstn. reflexivity. Qed.

(** The conditions read the window only. *)
Lemma banner_conditions_window (lines : list str) :
  banner_conditions lines = banner_conditions (firstn 12 lines).
Proof.
  unfold banner_conditions.
  now rewrite first_line_in_window, firstn_12_idem.
Qed.

End Lines.

(** ** The two outcomes of [process] *)

Section Outcomes.

Lemma process_by_decision (data : str) :
  process data =
  if strips data then join (skipn 12 (splitlines data)) else data.
Proof.
  unfold process, strips.
  destruct (12 <=? length (splitlines data)); simpl; [|reflexivity].
  now destruct (banner_conditions (splitlines data)).
Qed.

Lemma process_passthrough (data : str) :
  strips data = false -> process data = data.
Proof. intros H. now rewrite process_by_decision, H. Qed.

Lemma process_stripped (data : str) :
  strips data = true -> process data = join (skipn 12 (splitlines data)).
Proof. intros H. now rewrite process_by_decision, H. Qed.

Lemma strips_enough_lines (data : str) :
  strips data = true -> 12 <= length (splitlines data).
Proof.
  unfold strips. intros H. apply andb_prop in H as [H _].
  now apply Nat.leb_le.
Qed.

(** A strip always removes something. *)
Lemma process_stripped_shorter (data : str) :
  strips data = true -> length (process data) + 12 <= length data.
Proof.
  intros H. rewrite (process_stripped _ H).
  rewrite (split_at_12 data) at 2. rewrite length_app.
  pose proof (window_nonempty _ (strips_enough_lines _ H)). lia.
Qed.

Lemma process_fixed_iff (data : str) :
  process data = data <-> strips data = false.
Proof.
  split; [|apply process_passthrough].
  intros Heq. destruct (strips data) eqn:Hs; [|reflexivity].
  pose proof (process_stripped_shorter _ Hs) as Hlen.
  rewrite Heq in Hlen. lia.
Qed.

End Outcomes.

(** ** Left-trimming *)

Section Trim.

(** [lstrip] removes a leading run of whitespace and nothing else. *)
Lemma lstrip_whitespace_run (ws rest : str) :
  forallb isWhitespace ws = true ->
  (forall c r, rest = c :: r -> isWhitespace c = false) ->
  lstrip (ws ++ rest) = rest.
Proof.
  intros Hws Hrest. induction ws as [|w ws IH]; simpl in *.
  - destruct rest as [|c r]; [reflexivity|].
    simpl. now rewrite (Hrest c r eq_refl).
  - apply andb_prop in Hws as [Hw Hws]. rewrite Hw. now apply IH.
Qed.

(** Trimming spaces and tabs only is a special case: a line that starts with
    the opener after it does so after [lstrip] too. *)
Lemma lstrip_spaces_tabs_opener (line : str) :
  startswith (lstrip_spaces_tabs line) (lit "/**") = true ->
  startswith (lstrip line) (lit "/**") = true.
Proof.
  induction line as [|c line IH]; [trivial|].
  cbn [lstrip_spaces_tabs lstrip].
  destruct ((c =? 32) || (c =? 9))%N eqn:Hc.
  - assert (Hw : isWhitespace c = true).
    { apply orb_prop in Hc as [Hc | Hc]; apply N.eqb_eq in Hc; now subst. }
    now rewrite Hw.
  - intros Hopen.
    assert (Hslash : c = 47%N).
    { change (lit "/**") with [47; 42; 42]%N in Hopen. simpl in Hopen.
      apply andb_prop in Hopen as [Hopen _]. now apply N.eqb_eq. }
    subst c. exact Hopen.
Qed.

Lemma banner_conditions_first_line (lines : list str) :
  startswith (lstrip (nth 0 lines [])) (lit "/**") = false ->
  banner_conditions lines = false.
Proof. unfold banner_conditions. now intros ->. Qed.

Lemma strips_false_of_conditions (data : str) :
  banner_conditions (splitlines data) = false -> strips data = false.
Proof. unfold strips. intros ->. apply andb_false_r. Qed.

End Trim.

(** ** Properties of [process] *)

(** C1: for every input, the output of [process] is the input itself, or the
    input with its first 12 lines removed: the input then has at least 12
    lines, the output is the concatenation of the lines from index 12 on, and
    the input is the first 12 lines followed by the output. *)
Theorem process_identity_or_drop12 (data : str) :
  process data = data
  \/ (12 <= length (splitlines data)
      /\ process data = join (skipn 12 (splitlines data))
      /\ data = join (firstn 12 (splitlines data)) ++ process data).
Proof.
  destruct (strips data) eqn:Hs.
  - right. rewrite (process_stripped _ Hs).
    split; [now apply strips_enough_lines|].
    split; [reflexivity | apply split_at_12].
  - left. now apply process_passthrough.
Qed.

(** C2: on an input of at least 12 lines whose left-trimmed first line starts
    with the opener and whose first 12 lines, concatenated, contain the
    project name and the closer, [process] returns the concatenation of the
    lines from index 12 on, and this is the suffix of the input after its
    first 12 lines, terminators included. *)
Theorem process_strips_banner (data : str) :
  12 <= length (splitlines data) ->
  startswith (lstrip (nth 0 (splitlines data) [])) (lit "/**") = true ->
  contains (lit "Scenery Editor X") (join (firstn 12 (splitlines data))) = true ->
  contains (lit "*/") (join (firstn 12 (splitlines data))) = true ->
  process data = join (skipn 12 (splitlines data))
  /\ data = join (firstn 12 (splitlines data)) ++ process data.
Proof.
  intros Hlen H1 H2 H3.
  assert (Hs : strips data = true).
  { unfold strips, banner_conditions. rewrite H1, H2, H3.
    apply Nat.leb_le in Hlen. now rewrite Hlen. }
  rewrite (process_stripped _ Hs). split; [reflexivity | apply split_at_12].
Qed.

Lemma process_strips_banner_scenarioA :
  process scenarioA = code3
  /\ (process scenarioA = join (skipn 12 (splitlines scenarioA))
      /\ scenarioA = join (firstn 12 (splitlines scenarioA)) ++ process scenarioA).
Proof.
  split; [reflexivity|].
  apply (process_strips_banner scenarioA);
    [vm_compute; lia | reflexivity | reflexivity | reflexivity].
Defined.

(** C3: an input of fewer than 12 lines is returned as it is; the empty
    input, which has no line, gives the empty output. *)
Theorem short_input_unchanged :
  (forall data : str, length (splitlines data) < 12 -> process data = data)
  /\ process [] = [].
Proof.
  split; [|reflexivity].
  intros data Hlen. unfold process.
  apply Nat.leb_gt in Hlen. now rewrite Hlen.
Qed.

Lemma short_input_unchanged_scenarioB :
  length (splitlines scenarioB) = 11 /\ process scenarioB = scenarioB.
Proof.
  split; [reflexivity|].
  apply (proj1 short_input_unchanged scenarioB). vm_compute. lia.
Defined.

(** C4, as the code has it: the first line is trimmed of its whole leading
    run of whitespace characters (every character [str.isspace] accepts, not
    spaces and tabs alone), from the start only.  Whenever the first line of
    an input of at least 12 lines is a run [ws] of whitespace followed by a
    remainder [rest] that does not begin with whitespace, and [rest] does not
    start with the opener, [process] returns the input. *)
Theorem first_line_without_opener_unchanged (data ws rest : str) :
  12 <= length (splitlines data) ->
  nth 0 (splitlines data) [] = ws ++ rest ->
  forallb isWhitespace ws = true ->
  (forall c r, rest = c :: r -> isWhitespace c = false) ->
  startswith rest (lit "/**") = false ->
  process data = data.
Proof.
  intros _ Hline Hws Hrest Hopen.
  apply process_passthrough, strips_false_of_conditions.
  apply banner_conditions_first_line.
  now rewrite Hline, (lstrip_whitespace_run _ _ Hws Hrest).
Qed.

Lemma first_line_without_opener_indented_plain :
  contains (lit "Scenery Editor X") (join (firstn 12 (splitlines indented_plain))) = true
  /\ contains (lit "*/") (join (firstn 12 (splitlines indented_plain))) = true
  /\ process indented_plain = indented_plain.
Proof.
  split; [reflexivity|]. split; [reflexivity|].
  apply (first_line_without_opener_unchanged indented_plain
           [160; 32; 9]%N (lit "// Scenery Editor X */" ++ nl)).
  - vm_compute. lia.
  - reflexivity.
  - reflexivity.
  - intros c r Heq. injection Heq as <- _. reflexivity.
  - reflexivity.
Defined.

(** C4, as the claim words it, fails: with trimming restricted to spaces and
    tabs the first line of [nbsp_banner] does not start with the opener, the
    input has at least 12 lines, and [process] strips it all the same. *)
Lemma spaces_tabs_only_trimming_refuted :
  12 <= length (splitlines nbsp_banner)
  /\ startswith (lstrip_spaces_tabs (nth 0 (splitlines nbsp_banner) []))
       (lit "/**") = false
  /\ process nbsp_banner = code3
  /\ process nbsp_banner <> nbsp_banner.
Proof.
  split; [vm_compute; lia|]. split; [reflexivity|]. split; [reflexivity|].
  vm_compute. discriminate.
Qed.

(** C5, as the code has it: if the first line, trimmed of its whole leading
    run of whitespace (every character [str.isspace] accepts, not spaces and
    tabs alone), does not start with the opener, or the first 12 lines lack
    the project name, or they lack the closer, then [process] returns the
    input. *)
Theorem failed_condition_unchanged (data : str) :
  startswith (lstrip (nth 0 (splitlines data) [])) (lit "/**") = false
  \/ contains (lit "Scenery Editor X") (join (firstn 12 (splitlines data))) = false
  \/ contains (lit "*/") (join (firstn 12 (splitlines data))) = false ->
  process data = data.
Proof.
  intros H. apply process_passthrough, strips_false_of_conditions.
  unfold banner_conditions.
  destruct H as [-> | [-> | ->]];
    rewrite ?andb_false_r; reflexivity.
Qed.

Lemma failed_condition_unchanged_scenarioD :
  12 <= length (splitlines scenarioD) /\ process scenarioD = scenarioD.
Proof.
  split; [vm_compute; lia|].
  apply (failed_condition_unchanged scenarioD).
  right. left. reflexivity.
Defined.

(** C5, with the left-trim of the specification (spaces and tabs only),
    fails: the first line of [nbsp_banner] so trimmed does not start with
    the opener, which is the first of the three cases, and [process] strips
    the input all the same. *)
Lemma left_trim_spaces_tabs_refuted :
  (startswith (lstrip_spaces_tabs (nth 0 (splitlines nbsp_banner) []))
     (lit "/**") = false
   \/ contains (lit "Scenery Editor X")
        (join (firstn 12 (splitlines nbsp_banner))) = false
   \/ contains (lit "*/") (join (firstn 12 (splitlines nbsp_banner))) = false)
  /\ process nbsp_banner = code3
  /\ process nbsp_banner <> nbsp_banner.
Proof.
  split; [left; reflexivity|]. split; [reflexivity|].
  vm_compute. discriminate.
Qed.

(** C6, as the code has it: after a strip, a second application returns the
    first output unchanged exactly when that output does not itself meet the
    conditions of a strip (it has fewer than 12 lines, or its own first 12
    lines fail one of the three checks). *)
Theorem second_pass_unchanged_iff (data : str) :
  strips data = true ->
  (process (process data) = process data <-> strips (process data) = false).
Proof.
  intros _. apply process_fixed_iff.
Qed.

Lemma second_pass_unchanged_scenarioA :
  strips scenarioA = true
  /\ (process (process scenarioA) = process scenarioA
      <-> strips (process scenarioA) = false).
Proof.
  split; [reflexivity|].
  apply (second_pass_unchanged_iff scenarioA). reflexivity.
Defined.

(** C6, as the claim words it, fails: [process] strips [two_banners], and a
    second application strips the output once more. *)
Lemma second_pass_strips_again :
  strips two_banners = true
  /\ process two_banners = banner ++ code3
  /\ process (process two_banners) = code3
  /\ process (process two_banners) <> process two_banners.
Proof.
  split; [reflexivity|]. split; [reflexivity|]. split; [reflexivity|].
  vm_compute. discriminate.
Qed.

(** C7: two inputs of at least 12 lines each with the same first 12 lines
    get the same decision: both are stripped or both are returned as they
    are. *)
Theorem decision_reads_window_only (data1 data2 : str) :
  12 <= length (splitlines data1) ->
  12 <= length (splitlines data2) ->
  firstn 12 (splitlines data1) = firstn 12 (splitlines data2) ->
  strips data1 = strips data2
  /\ (process data1 = data1 <-> process data2 = data2).
Proof.
  intros H1 H2 Hwin.
  assert (Hs : strips data1 = strips data2).
  { unfold strips.
    apply Nat.leb_le in H1, H2. rewrite H1, H2. simpl.
    rewrite (banner_conditions_window (splitlines data1)).
    rewrite (banner_conditions_window (splitlines data2)).
    now rewrite Hwin. }
  split; [exact Hs|].
  rewrite !process_fixed_iff. now rewrite Hs.
Qed.

Lemma decision_reads_window_only_banner :
  strips (banner ++ code3) = true
  /\ (strips (banner ++ code3) = strips (banner ++ banner ++ code3)
      /\ (process (banner ++ code3) = banner ++ code3
          <-> process (banner ++ banner ++ code3) = banner ++ banner ++ code3)).
Proof.
  split; [reflexivity|].
  apply (decision_reads_window_only (banner ++ code3) (banner ++ banner ++ code3));
    [vm_compute; lia | vm_compute; lia | vm_compute; reflexivity].
Defined.

(** ** Input acquisition *)

Import IO.

(** With a path argument the input is the text of the file, or the empty
    string after a failure that derives from [Exception]; any other failure
    goes on to the caller. *)
Lemma _read_input_path (decode : list Byte.byte -> str) (w : world) :
  1 < length (argv w) ->
  _read_input decode w =
  match file_bytes w (nth 1 (argv w) []) with
  | Ok bs => Ok (decode bs)
  | Raise e => if derives_from_Exception e then Ok [] else Raise e
  end.
Proof.
  intros Hargs. apply Nat.ltb_lt in Hargs.
  unfold _read_input, read_text. rewrite Hargs.
  now destruct (file_bytes w (nth 1 (argv w) [])).
Qed.




(** ** Line boundaries other than LF and CR *)

(** C9: form feed, vertical tab and the separators U+2028 and U+2029 are
    line boundaries, and there is an input with fewer than 12 LF and no CR
    that [process] changes. *)
Theorem other_terminators_count_as_lines :
  (isLinebreak 12%N = true /\ isLinebreak 11%N = true
   /\ isLinebreak 8232%N = true /\ isLinebreak 8233%N = true)
  /\ exists data : str,
       length (filter (N.eqb LF) data) < 12
       /\ length (filter (N.eqb CR) data) = 0
       /\ 12 <= length (splitlines data)
       /\ process data <> data.
Proof.
  split; [repeat split|].
  exists ff_banner.
  split; [vm_compute; lia|]. split; [reflexivity|].
  split; [vm_compute; lia|].
  vm_compute. discriminate.
Qed.

(** C10: there is an input of at least 12 lines whose first line is exactly
    the four characters of an empty comment and its terminator, whose first
    12 lines hold the project name and a single occurrence of the closer,
    the one inside that first line, and [process] strips its first 12
    lines. *)
Theorem closer_may_overlap_opener :
  (startswith (lit "/**/") (lit "/**") = true
   /\ contains (lit "*/") (lit "/**/") = true)
  /\ exists data : str,
       12 <= length (splitlines data)
       /\ nth 0 (splitlines data) [] = lit "/**/" ++ [LF]
       /\ contains (lit "Scenery Editor X")
            (join (firstn 12 (splitlines data))) = true
       /\ occurrences (lit "*/") (nth 0 (splitlines data) []) = 1
       /\ occurrences (lit "*/") (join (firstn 12 (splitlines data))) = 1
       /\ process data = join (skipn 12 (splitlines data))
       /\ process data <> data.
Proof.
  split; [split; reflexivity|].
  exists overlap_banner.
  split; [vm_compute; lia|].
  do 5 (split; [reflexivity|]).
  vm_compute. discriminate.
Qed.

(** ** The lines of the output *)

Section OutputLines.

(** One step of the scan. *)
Lemma splitlines_from_cons (cur : str) (c : codepoint) (rest : str) :
  splitlines_from cur (c :: rest) =
  if isLinebreak c then
    match rest with
    | c' :: rest' =>
        if ((c =? CR) && (c' =? LF))%N
        then (cur ++ [c; c']) :: splitlines_from [] rest'
        else (cur ++ [c]) :: splitlines_from [] rest
    | [] => [cur ++ [c]]
    end
  else splitlines_from (cur ++ [c]) rest.
Proof. reflexivity. Qed.

Lemma splitlines_from_nil_join (s : str) :
  splitlines (join (splitlines_from [] s)) = splitlines_from [] s.
Proof.
  pose proof (splitlines_join s) as Hj. unfold splitlines in *.
  now rewrite Hj.
Qed.

(** The lines after the first are the lines of the text after the first
    line. *)
Lemma splitlines_from_tail (s : str) :
  forall cur l ls,
    splitlines_from cur s = l :: ls -> splitlines (join ls) = ls.
Proof.
  induction s as [|c rest IH]; intros cur l ls Hsplit.
  - destruct cur; simpl in Hsplit; [discriminate|].
    injection Hsplit as _ <-. reflexivity.
  - rewrite splitlines_from_cons in Hsplit. destruct (isLinebreak c).
    + destruct rest as [|c' rest'].
      * injection Hsplit as _ <-. reflexivity.
      * destruct ((c =? CR)%N && (c' =? LF)%N);
          injection Hsplit as _ <-;
          [exact (splitlines_from_nil_join rest')
          | exact (splitlines_from_nil_join (c' :: rest'))].
    + exact (IH _ _ _ Hsplit).
Qed.

Lemma splitlines_skipn (n : nat) :
  forall s, splitlines (join (skipn n (splitlines s))) = skipn n (splitlines s).
Proof.
  induction n as [|n IH]; intros s.
  - simpl. now rewrite splitlines_join.
  - destruct (splitlines s) as [|l ls] eqn:Hsplit; [reflexivity|].
    simpl. apply splitlines_from_tail in Hsplit.
    rewrite <- Hsplit at 2. rewrite <- (IH (join ls)). now rewrite Hsplit.
Qed.

End OutputLines.

(** X1: when [process] strips, the lines of its output are the lines of the
    input from index 12 on, one for one: the output has exactly 12 lines
    fewer, and no remaining line is split, merged or re-terminated. *)
Theorem stripped_output_lines (data : str) :
  strips data = true ->
  splitlines (process data) = skipn 12 (splitlines data)
  /\ length (splitlines (process data)) + 12 = length (splitlines data).
Proof.
  intros Hs. rewrite (process_stripped _ Hs), splitlines_skipn.
  split; [reflexivity|].
  rewrite length_skipn. pose proof (strips_enough_lines _ Hs). lia.
Qed.

Lemma stripped_output_lines_scenarioA :
  length (splitlines scenarioA) = 15
  /\ (splitlines (process scenarioA) = skipn 12 (splitlines scenarioA)
      /\ length (splitlines (process scenarioA)) + 12
         = length (splitlines scenarioA)).
Proof.
  split; [reflexivity|].
  apply (stripped_output_lines scenarioA). reflexivity.
Defined.

(** ** A banner of terminated lines in front of any text *)

Section TerminatedLines.

(** A terminated line is taken off the front of a text as it is. *)
Lemma terminated_line_split (l : str) :
  terminated_line l = true ->
  forall cur rest,
    splitlines_from cur (l ++ rest) = (cur ++ l) :: splitlines rest.
Proof.
  induction l as [|c l IH]; [discriminate|].
  intros Hl cur rest. destruct l as [|c' l'].
  - simpl in Hl. apply N.eqb_eq in Hl. subst c.
    change ([LF] ++ rest) with (LF :: rest).
    rewrite splitlines_from_cons. change (isLinebreak LF) with true.
    cbv iota. now destruct rest.
  - cbn [terminated_line] in Hl.
    rewrite <- app_comm_cons, splitlines_from_cons.
    destruct (isLinebreak c).
    + apply andb_prop in Hl as [Hcrlf Hend].
      destruct l' as [|c'' l'']; [|discriminate].
      change ([c'] ++ rest) with (c' :: rest). cbv iota.
      now rewrite Hcrlf.
    + rewrite (IH Hl). now rewrite <- app_assoc.
Qed.

Lemma terminated_lines_split (lines : list str) :
  forallb terminated_line lines = true ->
  forall rest, splitlines (join lines ++ rest) = lines ++ splitlines rest.
Proof.
  induction lines as [|l lines IH]; intros Hall rest; [reflexivity|].
  simpl in Hall. apply andb_prop in Hall as [Hl Hall].
  unfold join. cbn [concat]. rewrite <- app_assoc.
  unfold splitlines at 1. rewrite (terminated_line_split _ Hl).
  simpl. f_equal. now apply IH.
Qed.

Lemma firstn_length_app (n : nat) (l r : list str) :
  length l = n -> firstn n (l ++ r) = l /\ skipn n (l ++ r) = r.
Proof.
  revert n. induction l as [|x l IH]; intros n Hn; subst n; simpl.
  - now split.
  - destruct (IH (length l) eq_refl) as [-> ->]. now split.
Qed.

End TerminatedLines.

(** X2: a text that opens with 12 lines, each ended by LF or CR LF, of
    which the first, left-trimmed, starts with the opener and which together
    hold the project name and the closer, is mapped to exactly what follows
    these 12 lines, whatever follows. *)
Theorem banner_then_rest (lines : list str) (rest : str) :
  length lines = 12 ->
  forallb terminated_line lines = true ->
  startswith (lstrip (nth 0 lines [])) (lit "/**") = true ->
  contains (lit "Scenery Editor X") (join lines) = true ->
  contains (lit "*/") (join lines) = true ->
  process (join lines ++ rest) = rest.
Proof.
  intros Hlen Hterm Hopen Hname Hclose.
  destruct (firstn_length_app 12 lines (splitlines rest) Hlen) as [Hfirst Hskip].
  assert (Hs : strips (join lines ++ rest) = true).
  { unfold strips. rewrite (terminated_lines_split _ Hterm).
    rewrite banner_conditions_window, Hfirst.
    unfold banner_conditions.
    replace (firstn 12 lines) with lines
      by (symmetry; rewrite <- Hlen; apply firstn_all).
    rewrite Hopen, Hname, Hclose, length_app, Hlen. reflexivity. }
  rewrite (process_stripped _ Hs), (terminated_lines_split _ Hterm), Hskip.
  apply splitlines_join.
Qed.

Lemma banner_then_rest_crlf :
  process (join crlf_banner_lines ++ code3) = code3.
Proof.
  apply (banner_then_rest crlf_banner_lines code3); reflexivity.
Defined.

(** ** What the first character decides *)

Section FirstCharacter.

Lemma linebreak_is_whitespace (c : codepoint) :
  isLinebreak c = true -> isWhitespace c = true.
Proof.
  unfold isLinebreak, isWhitespace.
  rewrite !orb_true_iff, !andb_true_iff, !N.leb_le, !N.eqb_eq. lia.
Qed.

(** The first line begins with what the scan has taken so far. *)
Lemma splitlines_from_first (s : str) :
  forall cur, exists t, nth 0 (splitlines_from cur s) [] = cur ++ t.
Proof.
  induction s as [|c rest IH]; intros cur.
  - exists []. destruct cur; simpl; now rewrite ?app_nil_r.
  - rewrite splitlines_from_cons. destruct (isLinebreak c).
    + destruct rest as [|c' rest'];
        [|destruct ((c =? CR)%N && (c' =? LF)%N)]; eexists; reflexivity.
    + destruct (IH (cur ++ [c])) as [t Ht]. exists (c :: t).
      rewrite Ht. now rewrite <- app_assoc.
Qed.

End FirstCharacter.

(** X3: a text that begins with a line boundary is returned as it is: its
    first line is that boundary alone, so a banner that starts on the second
    line is never stripped. *)
Theorem leading_linebreak_unchanged (c : codepoint) (rest : str) :
  isLinebreak c = true -> process (c :: rest) = c :: rest.
Proof.
  intros Hc. pose proof (linebreak_is_whitespace _ Hc) as Hw.
  apply process_passthrough, strips_false_of_conditions,
    banner_conditions_first_line.
  unfold splitlines. rewrite splitlines_from_cons, Hc.
  destruct rest as [|c' rest']; [simpl; now rewrite Hw|].
  destruct ((c =? CR)%N && (c' =? LF)%N) eqn:Hcrlf; simpl; rewrite Hw;
    [|reflexivity].
  apply andb_prop in Hcrlf as [_ Hlf]. apply N.eqb_eq in Hlf. now subst c'.
Qed.

Lemma leading_linebreak_unchanged_late_banner :
  strips (banner ++ code3) = true /\ process late_banner = late_banner.
Proof.
  split; [reflexivity|].
  apply (leading_linebreak_unchanged LF (banner ++ code3)). reflexivity.
Defined.

(** X4: a text whose first character is neither whitespace nor a slash is
    returned as it is; so is a file that begins with a byte order mark the
    decoder has kept. *)
Theorem first_character_not_slash_unchanged (c : codepoint) (rest : str) :
  isWhitespace c = false -> c <> 47%N -> process (c :: rest) = c :: rest.
Proof.
  intros Hw Hslash.
  assert (Hc : isLinebreak c = false).
  { destruct (isLinebreak c) eqn:Hc; [|reflexivity].
    apply linebreak_is_whitespace in Hc. congruence. }
  apply process_passthrough, strips_false_of_conditions,
    banner_conditions_first_line.
  unfold splitlines. rewrite splitlines_from_cons, Hc.
  destruct (splitlines_from_first rest ([] ++ [c])) as [t ->].
  simpl. rewrite Hw.
  change (lit "/**") with [47; 42; 42]%N. simpl.
  apply N.eqb_neq in Hslash. now rewrite Hslash.
Qed.

Lemma first_character_not_slash_bom :
  strips (banner ++ code3) = true /\ process bom_banner = bom_banner.
Proof.
  split; [reflexivity|].
  apply (first_character_not_slash_unchanged 65279%N (banner ++ code3)).
  - reflexivity.
  - lia.
Defined.

(** ** How much a strip removes *)

Section Removal.

Lemma nonempty_skipn (n : nat) (lines : list str) :
  Forall (fun l => l <> []) lines ->
  Forall (fun l => l <> []) (skipn n lines).
Proof.
  intros H. revert n.
  induction H as [|l ls Hl Hls IH]; intros [|n]; simpl; auto.
Qed.

Lemma process_short (data : str) :
  length (splitlines data) < 12 -> process data = data.
Proof.
  intros Hlen. unfold process. apply Nat.leb_gt in Hlen. now rewrite Hlen.
Qed.

(** Lines left over hold at least a character each. *)
Lemma remainder_length (data : str) :
  length (splitlines data) - 12
  <= length (join (skipn 12 (splitlines data))).
Proof.
  rewrite <- length_skipn. apply join_nonempty_length.
  apply nonempty_skipn, splitlines_nonempty.
Qed.

End Removal.

(** X5: the output is always a suffix of the input; what is cut off in
    front of it is nothing when [process] passes the input through and at
    least 12 characters when it strips. *)
Theorem output_is_suffix (data : str) :
  exists removed : str,
    data = removed ++ process data
    /\ if strips data then 12 <= length removed else removed = [].
Proof.
  destruct (strips data) eqn:Hs.
  - exists (join (firstn 12 (splitlines data))).
    rewrite (process_stripped _ Hs). split; [apply split_at_12|].
    apply window_nonempty. now apply strips_enough_lines.
  - exists []. now rewrite (process_passthrough _ Hs).
Qed.

(** X6: the output is empty in two cases only: the input is empty, or the
    input is stripped and has exactly 12 lines. *)
Theorem empty_output_iff (data : str) :
  process data = []
  <-> data = [] \/ (strips data = true /\ length (splitlines data) = 12).
Proof.
  split.
  - intros Hout. destruct (strips data) eqn:Hs.
    + right. split; [reflexivity|].
      pose proof (strips_enough_lines _ Hs) as Hge.
      pose proof (remainder_length data) as Hrem.
      rewrite <- (process_stripped _ Hs), Hout in Hrem. simpl in Hrem. lia.
    + left. now rewrite (process_passthrough _ Hs) in Hout.
  - intros [-> | [Hs Hlen]]; [reflexivity|].
    rewrite (process_stripped _ Hs).
    now rewrite skipn_all2 by lia.
Qed.

(** X7: on an input of fewer than 24 lines a second application changes
    nothing: what a strip leaves has fewer than 12 lines. *)
Theorem second_pass_unchanged_below_24_lines (data : str) :
  length (splitlines data) < 24 ->
  process (process data) = process data.
Proof.
  intros Hlen. destruct (strips data) eqn:Hs.
  - apply process_short.
    rewrite (process_stripped _ Hs), splitlines_skipn, length_skipn. lia.
  - now rewrite (process_passthrough _ Hs), (process_passthrough _ Hs).
Qed.

Lemma second_pass_unchanged_below_24_scenarioA :
  strips scenarioA = true
  /\ process (process scenarioA) = process scenarioA.
Proof.
  split; [reflexivity|].
  apply (second_pass_unchanged_below_24_lines scenarioA). vm_compute. lia.
Defined.

(** ** Which failures reach the caller *)




